(** * WordLetter1: the letter relay server (server/index.js)

    A shallow embedding of the three letter handlers of [server/index.js]
    (POST /api/letters, GET /api/letters, GET /api/letters/:id) and the
    properties of their call sequences, responses and text extraction,
    and of the OAuth callback route (GET /api/auth/google/callback).

    The handlers are asynchronous JavaScript functions that await calls on
    the Drive and Docs clients.  A handler is embedded as a program over
    an effect signature ([Prog]): every awaited call is a node whose
    continuation receives either the response payload or the rejection,
    and [run] plays a program against a world that answers calls,
    recording every call and every console log, in order. *)

From stdpp Require Import base strings gmap list.

Set Warnings "-register-all".

Local Open Scope string_scope.

(** ** JavaScript values received from the client *)

Module Js.

(** What [express.json()] and the query parser put into [req.body] and
    [req.query]: JSON values; [JUndefined] is what reading an absent
    property gives.  Numbers are kept as integers: the handlers only
    test them for truthiness and pass them on. *)
Inductive JsVal : Type :=
| JUndefined
| JNull
| JBool (b : bool)
| JNum (n : Z)
| JStr (s : string)
| JArr (items : list JsVal)
| JObj (fields : gmap string JsVal).

(** ToBoolean: [undefined], [null], [false], [0] and [''] are falsy,
    everything else (arrays and objects included) is truthy. *)
Definition truthy (v : JsVal) : bool :=
  match v with
  | JUndefined | JNull => false
  | JBool b => b
  | JNum n => negb (n =? 0)%Z
  | JStr s => negb (String.eqb s "")
  | JArr _ | JObj _ => true
  end.

(** [obj.key] on a parsed object: the value, or [undefined]. *)
Definition prop (obj : gmap string JsVal) (key : string) : JsVal :=
  default JUndefined (obj !! key).

(** What a thrown value is: a rejection of a downstream call, carrying
    the collaborator's detail, or a [TypeError] of the runtime. *)
Inductive JsError : Type :=
| ApiError (detail : string)
| TypeError (detail : string).

Inductive Result (A : Type) : Type :=
| Ok (a : A)
| Err (e : JsError).
Arguments Ok {A} a.
Arguments Err {A} e.

Definition is_ok {A} (r : Result A) : bool :=
  match r with Ok _ => true | Err _ => false end.

(** An optional string spliced into a template literal:
    [`${x}`] prints an absent [x] as [undefined]. *)
Definition interpolate (x : option string) : string :=
  default "undefined" x.

(** [Array.prototype.forEach] with a callback that updates an
    accumulator captured from the enclosing scope and that may throw:
    the elements are visited in order and a throw ends the loop. *)
Fixpoint forEach {A S : Type} (f : S -> A -> Result S) (l : list A) (s : S)
  : Result S :=
  match l with
  | [] => Ok s
  | x :: rest =>
      match f s x with
      | Ok s' => forEach f rest s'
      | Err e => Err e
      end
  end.

End Js.
Export Js.

(** ** Resources of the Drive and Docs clients

    The payloads ([response.data]) of the googleapis client.  Every field
    of a resource is optional in the JSON the client returns; an absent
    field reads as [undefined], which is [None] here. *)

Module Api.

(** Drive [File]. *)
Record File : Type := mkFile {
  id : option string;
  name : option string;
  webViewLink : option string;
  createdTime : option string
}.

(** Drive [FileList]. *)
Record FileList : Type := mkFileList {
  files : option (list File)
}.

(** Docs [TextRun]. *)
Record TextRun : Type := mkTextRun {
  content : option string
}.

(** Docs [ParagraphElement]: a text run, or some other inline element. *)
Record ParagraphElement : Type := mkParagraphElement {
  textRun : option TextRun;
  inlineObjectElement : option string
}.

(** Docs [Paragraph]. *)
Record Paragraph : Type := mkParagraph {
  elements : option (list ParagraphElement)
}.

(** Docs [Table], by the text of its cells, row by row. *)
Record Table : Type := mkTable {
  tableRows : list (list string)
}.

(** Docs [StructuralElement]: one block of the body. *)
Record StructuralElement : Type := mkStructuralElement {
  paragraph : option Paragraph;
  table : option Table;
  sectionBreak : bool
}.

(** Docs [Body]; its block list is the field [content]. *)
Record Body : Type := mkBody {
  blocks : option (list StructuralElement)
}.

(** Docs [Document]. *)
Record Document : Type := mkDocument {
  documentId : option string;
  title : option string;
  body : option Body
}.

(** One request of a Docs batch update: [insertText]. *)
Record InsertText : Type := mkInsertText {
  index : Z;
  text : JsVal
}.

(** The downstream calls the handlers await, indexed by the payload of
    their response. *)
Inductive Call : Type -> Type :=
| DriveFilesList (q fields : string) : Call FileList
| DriveFilesCreate (resourceName resourceMimeType fields : string) : Call File
| DriveFilesUpdate (fileId addParents : option string) (fields : string)
  : Call File
| DocsDocumentsCreate (requestTitle : JsVal) : Call Document
| DocsDocumentsBatchUpdate (docId : option string) (requests : list InsertText)
  : Call unit
| DocsDocumentsGet (docId : string) : Call Document.

End Api.
Export Api.

(** ** Asynchronous programs *)

Module Async.

(** A handler's behaviour: it ends with a value, awaits a downstream call
    made with the credentials [auth], or writes to the error console. *)
Inductive Prog (R : Type) : Type :=
| Ret (r : R)
| Await {A : Type} (auth : JsVal) (c : Call A) (k : Result A -> Prog R)
| ConsoleError (label : string) (e : JsError) (k : Prog R).
Arguments Ret {R} r.
Arguments Await {R A} auth c k.
Arguments ConsoleError {R} label e k.

Fixpoint bind {A B : Type} (p : Prog A) (f : A -> Prog B) : Prog B :=
  match p with
  | Ret a => f a
  | Await auth c k => Await auth c (fun r => bind (k r) f)
  | ConsoleError l e k => ConsoleError l e (bind k f)
  end.

(** The body of a [try] block: a program that ends with a value or with
    a thrown error. *)
Definition Try (A : Type) : Type := Prog (Result A).

Definition ret {A} (a : A) : Try A := Ret (Ok a).
Definition throw {A} (e : JsError) : Try A := Ret (Err e).

(** [await c]: a rejected promise throws at the [await]. *)
Definition await {A} (auth : JsVal) (c : Call A) : Try A :=
  Await auth c (fun r => Ret r).

(** Sequencing inside a [try] block: a throw skips the rest. *)
Definition andThen {A B} (p : Try A) (f : A -> Try B) : Try B :=
  bind p (fun r => match r with Ok a => f a | Err e => throw e end).

(** [try { p } catch (error) { h error }]. *)
Definition tryCatch {R} (p : Try R) (h : JsError -> Prog R) : Prog R :=
  bind p (fun r => match r with Ok a => Ret a | Err e => h e end).

(** Reading [o.key] where [o] is [undefined] throws a [TypeError]. *)
Definition readOf {A} (o : option A) (what : string) : Try A :=
  match o with
  | Some a => ret a
  | None => throw (TypeError ("Cannot read properties of undefined (reading '" ++ what ++ "')"))
  end.

(** What an observer of the process sees, in order. *)
Inductive Event : Type :=
| EvCall {A : Type} (auth : JsVal) (c : Call A) (r : Result A)
| EvLog (label : string) (e : JsError).

(** The collaborators: given what has happened so far, the answer to
    the next call. *)
Definition World : Type :=
  list Event -> forall A : Type, JsVal -> Call A -> Result A.

(** [run w h p]: play [p] in world [w] after the events [h]; the events
    at the end, and the value of [p]. *)
Fixpoint run {R : Type} (w : World) (h : list Event) (p : Prog R)
  : list Event * R :=
  match p with
  | Ret r => (h, r)
  | Await auth c k =>
      let r := w h _ auth c in
      run w (h ++ [EvCall auth c r]) (k r)
  | ConsoleError l e k => run w (h ++ [EvLog l e]) k
  end.

Definition isCall (ev : Event) : bool :=
  match ev with EvCall _ _ _ => true | EvLog _ _ => false end.

Definition isFailedCall (ev : Event) : bool :=
  match ev with EvCall _ _ r => negb (is_ok r) | EvLog _ _ => false end.

(** The downstream calls among the events. *)
Definition calls (tr : list Event) : list Event := List.filter isCall tr.

(** Whether some downstream call among the events was rejected. *)
Definition someCallFailed (tr : list Event) : bool := existsb isFailedCall tr.

End Async.
Export Async.

Declare Scope try_scope.
Delimit Scope try_scope with try.
Notation "x <- p ;; q" := (andThen p (fun x => q))
  (at level 100, p at next level, right associativity) : try_scope.
Notation "p ;;; q" := (andThen p (fun _ => q))
  (at level 100, right associativity) : try_scope.

(** ** The handlers of server/index.js *)

Module Server.

(** What a handler sends: [res.status(n).json(...)]; [res.json(...)]
    alone sends with status 200. *)
Inductive ResBody : Type :=
| ErrorJson (error : string)
| SavedJson (message : string) (documentId : option string) (documentUrl : string)
| LettersJson (letters : option (list File))
| LetterJson (id title : option string) (content : string).

Record Response : Type := mkResponse {
  status : nat;
  json : ResBody
}.

Definition folderMimeType : string := "application/vnd.google-apps.folder".

(** The query both handlers use to find the folder (lines 80 and 166). *)
Definition lettersFolderQuery : string :=
  "mimeType='application/vnd.google-apps.folder' and name='Letters' and trashed=false".

(** Lines 77-98: find the Letters folder, or create it; the value is
    [folderId]. *)
Definition ensureLettersFolder (auth : JsVal) : Try (option string) :=
  (folderResponse <- await auth (DriveFilesList lettersFolderQuery "files(id, name)");;
   fs <- readOf (files folderResponse) "length";;
   if (0 <? length fs)%nat then
     f <- readOf (fs !! 0) "id";;
     ret (id f)
   else
     folder <- await auth (DriveFilesCreate "Letters" folderMimeType "id");;
     ret (id folder))%try.

(** Line 139. *)
Definition documentUrlOf (documentId : option string) : string :=
  "https://docs.google.com/document/d/" ++ interpolate documentId ++ "/edit".

(** Lines 69-140: the [try] block of POST /api/letters. *)
Definition saveLetter (content title accessToken : JsVal) : Try Response :=
  (let auth := accessToken in
   folderId <- ensureLettersFolder auth;;
   docResponse <- await auth (DocsDocumentsCreate title);;
   let documentId := documentId docResponse in
   await auth (DocsDocumentsBatchUpdate documentId
                 [ {| index := 1; text := content |} ]);;;
   await auth (DriveFilesUpdate documentId folderId "id, parents");;;
   ret {| status := 201;
          json := SavedJson "Letter saved successfully" documentId
                    (documentUrlOf documentId) |})%try.

(** POST /api/letters (lines 62-146); [body] is [req.body]. *)
Definition postLetters (body : gmap string JsVal) : Prog Response :=
  let content := prop body "content" in
  let title := prop body "title" in
  let accessToken := prop body "accessToken" in
  if negb (truthy content) || negb (truthy title) || negb (truthy accessToken) then
    Ret {| status := 400; json := ErrorJson "Missing required fields" |}
  else
    tryCatch (saveLetter content title accessToken)
      (fun error =>
         ConsoleError "Error saving letter:" error
           (Ret {| status := 500;
                   json := ErrorJson "Failed to save letter to Google Drive" |})).

(** Line 178. *)
Definition folderContentsQuery (folderId : option string) : string :=
  "'" ++ interpolate folderId ++
  "' in parents and mimeType='application/vnd.google-apps.document' and trashed=false".

(** Lines 156-182: the [try] block of GET /api/letters. *)
Definition fetchLetters (accessToken : JsVal) : Try Response :=
  (let auth := accessToken in
   folderResponse <- await auth (DriveFilesList lettersFolderQuery "files(id, name)");;
   fs <- readOf (files folderResponse) "length";;
   if (length fs =? 0)%nat then
     ret {| status := 200; json := LettersJson (Some []) |}
   else
     f <- readOf (fs !! 0) "id";;
     let folderId := id f in
     fileResponse <- await auth
       (DriveFilesList (folderContentsQuery folderId)
          "files(id, name, webViewLink, createdTime)");;
     ret {| status := 200; json := LettersJson (files fileResponse) |})%try.

(** GET /api/letters (lines 149-188); [query] is [req.query]. *)
Definition getLetters (query : gmap string JsVal) : Prog Response :=
  let accessToken := prop query "accessToken" in
  if negb (truthy accessToken) then
    Ret {| status := 400; json := ErrorJson "Access token is required" |}
  else
    tryCatch (fetchLetters accessToken)
      (fun error =>
         ConsoleError "Error fetching letters:" error
           (Ret {| status := 500;
                   json := ErrorJson "Failed to fetch letters from Google Drive" |})).

(** [content += x]: appending to a string converts [x] to a string. *)
Definition appendTo (acc : string) (x : option string) : string :=
  acc ++ interpolate x.

(** Lines 217-221: the inner callback, on one element of a paragraph. *)
Definition visitElement (acc : string) (element : ParagraphElement)
  : Result string :=
  match textRun element with
  | Some run => Ok (appendTo acc (content run))
  | None => Ok acc
  end.

(** Lines 215-223: the outer callback, on one block of the body;
    [item.paragraph.elements.forEach] throws when [elements] is
    absent. *)
Definition visitItem (acc : string) (item : StructuralElement)
  : Result string :=
  match paragraph item with
  | Some par =>
      match elements par with
      | Some els => forEach visitElement els acc
      | None =>
          Err (TypeError "Cannot read properties of undefined (reading 'forEach')")
      end
  | None => Ok acc
  end.

(** Lines 212-224: the text of a fetched document. *)
Definition extractContent (doc : Document) : Result string :=
  let content := "" in
  match body doc with
  | Some b =>
      match blocks b with
      | Some items => forEach visitItem items content
      | None => Ok content
      end
  | None => Ok content
  end.

(** Lines 199-230: the [try] block of GET /api/letters/:id. *)
Definition fetchLetter (id : string) (accessToken : JsVal) : Try Response :=
  (let auth := accessToken in
   document <- await auth (DocsDocumentsGet id);;
   content <- Ret (extractContent document);;
   ret {| status := 200;
          json := LetterJson (documentId document) (title document) content |})%try.

(** GET /api/letters/:id (lines 191-236); [id] is [req.params.id]. *)
Definition getLetter (id : string) (query : gmap string JsVal) : Prog Response :=
  let accessToken := prop query "accessToken" in
  if negb (truthy accessToken) then
    Ret {| status := 400; json := ErrorJson "Access token is required" |}
  else
    tryCatch (fetchLetter id accessToken)
      (fun error =>
         ConsoleError "Error fetching letter:" error
           (Ret {| status := 500;
                   json := ErrorJson "Failed to fetch letter from Google Drive" |})).

End Server.
Export Server.

(** ** Routing *)

Module Router.

(** The letter routes registered on [app]. *)
Inductive Request : Type :=
| PostLetters (body : gmap string JsVal)
| GetLetters (query : gmap string JsVal)
| GetLetter (id : string) (query : gmap string JsVal).

Definition handle (req : Request) : Prog Response :=
  match req with
  | PostLetters body => postLetters body
  | GetLetters query => getLetters query
  | GetLetter id query => getLetter id query
  end.

(** The first argument of the route's [console.error]. *)
Definition logLabel (req : Request) : string :=
  match req with
  | PostLetters _ => "Error saving letter:"
  | GetLetters _ => "Error fetching letters:"
  | GetLetter _ _ => "Error fetching letter:"
  end.

(** The [error] string of the route's 500 response. *)
Definition failureMessage (req : Request) : string :=
  match req with
  | PostLetters _ => "Failed to save letter to Google Drive"
  | GetLetters _ => "Failed to fetch letters from Google Drive"
  | GetLetter _ _ => "Failed to fetch letter from Google Drive"
  end.

End Router.
Export Router.

(** ** Worlds and requests used as concrete instances *)

Module Scenario.

Definition lettersFolder : File :=
  {| id := Some "folder-7"; name := Some "Letters";
     webViewLink := None; createdTime := None |}.

Definition freshFolder : File :=
  {| id := Some "folder-new"; name := None;
     webViewLink := None; createdTime := None |}.

Definition emptyDocument : Document :=
  {| documentId := Some "doc-1"; title := Some "Dear Ada"; body := None |}.

(** A world where every call succeeds: the folder lookup finds
    [folders], document fetches give [doc]. *)
Definition calm (folders : list File) (doc : Document) : World :=
  fun _ A _ c =>
    match c in Call T return Result T with
    | DriveFilesList _ _ => Ok {| files := Some folders |}
    | DriveFilesCreate _ _ _ => Ok freshFolder
    | DriveFilesUpdate fileId _ _ =>
        Ok {| id := fileId; name := None; webViewLink := None; createdTime := None |}
    | DocsDocumentsCreate _ => Ok emptyDocument
    | DocsDocumentsBatchUpdate _ _ => Ok tt
    | DocsDocumentsGet _ => Ok doc
    end.

(** [w], except that the call made after [n] earlier calls is rejected. *)
Definition rejecting (n : nat) (detail : string) (w : World) : World :=
  fun h A auth c =>
    if (length (calls h) =? n)%nat then Err (ApiError detail) else w h A auth c.

Definition letterBody : gmap string JsVal :=
  {[ "content" := JStr "Dear Ada, hello."; "title" := JStr "Dear Ada";
     "accessToken" := JStr "ya29.token" ]}.

Definition tokenQuery : gmap string JsVal :=
  {[ "accessToken" := JStr "ya29.token" ]}.

Definition bodyWithoutTitle : gmap string JsVal :=
  {[ "content" := JStr "Dear Ada, hello."; "accessToken" := JStr "ya29.token" ]}.

Definition bodyWithEmptyContent : gmap string JsVal :=
  {[ "content" := JStr ""; "title" := JStr "Dear Ada";
     "accessToken" := JStr "ya29.token" ]}.

Definition queryWithoutToken : gmap string JsVal :=
  {[ "page" := JStr "2" ]}.

Definition textElement (s : string) : ParagraphElement :=
  {| textRun := Some {| content := Some s |}; inlineObjectElement := None |}.

Definition paragraphOf (runs : list string) : StructuralElement :=
  {| paragraph := Some {| elements := Some (map textElement runs) |};
     table := None; sectionBreak := false |}.

Definition tableBlock : StructuralElement :=
  {| paragraph := None; table := Some {| tableRows := [["a"; "b"]; ["c"; "d"]] |};
     sectionBreak := false |}.

Definition brokenParagraph : StructuralElement :=
  {| paragraph := Some {| elements := None |}; table := None; sectionBreak := false |}.

Definition documentOf (items : list StructuralElement) : Document :=
  {| documentId := Some "doc-1"; title := Some "Dear Ada";
     body := Some {| blocks := Some items |} |}.

(** The paragraphs [Hello, ] and [world!] around a table, the first one
    split over two runs. *)
Definition helloBlocks : list StructuralElement :=
  [paragraphOf ["Hel"; "lo, "]; tableBlock; paragraphOf ["world!"]].

End Scenario.

(** ** The structured body as the specification reads it *)

Module Reading.

(** The text fragment a run element carries, if it carries one. *)
Definition runFragments (element : ParagraphElement) : list string :=
  match textRun element with
  | Some run => match content run with Some s => [s] | None => [] end
  | None => []
  end.

(** The fragments of one block: those of its runs, in order, when the
    block is a paragraph; none otherwise. *)
Definition blockFragments (item : StructuralElement) : list string :=
  match paragraph item with
  | Some par => flat_map runFragments (default [] (elements par))
  | None => []
  end.

(** The fragments of a body, in document order. *)
Definition fragments (items : list StructuralElement) : list string :=
  flat_map blockFragments items.

(** Concatenation with nothing between the pieces. *)
Definition joined (pieces : list string) : string :=
  fold_right String.append "" pieces.

(** Every text run carries its text. *)
Definition runsCarryText (els : list ParagraphElement) : bool :=
  forallb (fun el => match textRun el with
                     | Some run => bool_decide (is_Some (content run))
                     | None => true
                     end) els.

(** Every paragraph block carries its sequence of run elements. *)
Definition paragraphHasElements (item : StructuralElement) : bool :=
  match paragraph item with
  | Some par => bool_decide (is_Some (elements par))
  | None => true
  end.

(** The data model of the structured body: each paragraph is a sequence
    of run elements, each text run has its text. *)
Definition wellFormed (items : list StructuralElement) : bool :=
  forallb (fun item =>
             paragraphHasElements item &&
             match paragraph item with
             | Some par => runsCarryText (default [] (elements par))
             | None => true
             end) items.

(** The precondition of the extraction, on a whole document. *)
Definition paragraphsHaveElements (doc : Document) : bool :=
  match body doc with
  | Some b =>
      match blocks b with
      | Some items => forallb paragraphHasElements items
      | None => true
      end
  | None => true
  end.


End Reading.
Export Reading.

(** ** The create-letter pipeline as a sequence of events *)

Module Pipeline.

Definition folderLookup (auth : JsVal) (found : list File) : Event :=
  EvCall auth (DriveFilesList lettersFolderQuery "files(id, name)")
    (Ok {| files := Some found |}).

Definition folderCreate (auth : JsVal) (folder : File) : Event :=
  EvCall auth (DriveFilesCreate "Letters" folderMimeType "id") (Ok folder).

(** The three calls that follow the folder step, all answered: the
    document is created with [title], [content] is inserted whole by one
    batch update holding one insertText at index 1, and the document is
    given the parent [folderId]. *)
Definition documentSteps (auth title content : JsVal) (doc : Document)
    (folderId : option string) (moved : File) : list Event :=
  [ EvCall auth (DocsDocumentsCreate title) (Ok doc);
    EvCall auth
      (DocsDocumentsBatchUpdate (documentId doc) [ {| index := 1; text := content |} ])
      (Ok tt);
    EvCall auth (DriveFilesUpdate (documentId doc) folderId "id, parents") (Ok moved) ].

Definition saved (doc : Document) : Response :=
  {| status := 201;
     json := SavedJson "Letter saved successfully" (documentId doc)
               (documentUrlOf (documentId doc)) |}.

(** A run that ended in the route's generic failure: the response is the
    500 with the fixed message, and the events end with the rejected
    call followed by the log of its error; no call before it was
    rejected. *)
Definition endsInGenericFailure (req : Request) (out : list Event * Response) : Prop :=
  out.2 = {| status := 500; json := ErrorJson (failureMessage req) |} /\
  exists (pre : list Event) (A : Type) (auth : JsVal) (c : Call A) (e : JsError),
    out.1 = (pre ++ [EvCall auth c (Err e); EvLog (logLabel req) e])%list /\
    someCallFailed pre = false.

End Pipeline.
Export Pipeline.

(** ** Observations on a run *)

Module Observe.

(** Which method of which client a call is. *)
Inductive CallTag : Type :=
| TagFilesList
| TagFilesCreate
| TagFilesUpdate
| TagDocumentsCreate
| TagDocumentsBatchUpdate
| TagDocumentsGet.

Definition tagOf {A : Type} (c : Call A) : CallTag :=
  match c with
  | DriveFilesList _ _ => TagFilesList
  | DriveFilesCreate _ _ _ => TagFilesCreate
  | DriveFilesUpdate _ _ _ => TagFilesUpdate
  | DocsDocumentsCreate _ => TagDocumentsCreate
  | DocsDocumentsBatchUpdate _ _ => TagDocumentsBatchUpdate
  | DocsDocumentsGet _ => TagDocumentsGet
  end.

(** The methods called during a run, in order. *)
Definition eventTags (tr : list Event) : list CallTag :=
  flat_map (fun ev => match ev with
                      | EvCall _ c _ => [tagOf c]
                      | EvLog _ _ => []
                      end) tr.

(** The credentials each call of a run was made with. *)
Definition credentialsUsed (tr : list Event) : list JsVal :=
  flat_map (fun ev => match ev with
                      | EvCall auth _ _ => [auth]
                      | EvLog _ _ => []
                      end) tr.

(** The errors written to the console during a run. *)
Definition logged (tr : list Event) : list (string * JsError) :=
  flat_map (fun ev => match ev with
                      | EvCall _ _ _ => []
                      | EvLog label e => [(label, e)]
                      end) tr.

(** A folder create that was answered. *)
Definition isFolderCreated (ev : Event) : bool :=
  match ev with
  | EvCall _ c r =>
      match tagOf c with
      | TagFilesCreate => is_ok r
      | _ => false
      end
  | EvLog _ _ => false
  end.

Definition foldersCreated (tr : list Event) : nat :=
  length (List.filter isFolderCreated tr).


(** [accessToken] as the route reads it. *)
Definition tokenOf (req : Request) : JsVal :=
  match req with
  | PostLetters body => prop body "accessToken"
  | GetLetters query => prop query "accessToken"
  | GetLetter _ query => prop query "accessToken"
  end.

(** Whether the request passes the check at the head of its route
    (lines 65, 152 and 195). *)
Definition passesCheck (req : Request) : bool :=
  match req with
  | PostLetters body =>
      truthy (prop body "content") && truthy (prop body "title")
      && truthy (prop body "accessToken")
  | GetLetters query => truthy (prop query "accessToken")
  | GetLetter _ query => truthy (prop query "accessToken")
  end.

(** The [error] string of the route's 400 response. *)
Definition checkMessage (req : Request) : string :=
  match req with
  | PostLetters _ => "Missing required fields"
  | GetLetters _ => "Access token is required"
  | GetLetter _ _ => "Access token is required"
  end.

(** The text a run element appends: the content of its text run,
    converted to a string, when it has a text run. *)
Definition runText (element : ParagraphElement) : list string :=
  match textRun element with
  | Some run => [interpolate (content run)]
  | None => []
  end.

Definition blockTexts (item : StructuralElement) : list string :=
  match paragraph item with
  | Some par => flat_map runText (default [] (elements par))
  | None => []
  end.

Definition isParagraphBlock (item : StructuralElement) : bool :=
  match paragraph item with Some _ => true | None => false end.

(** A fetched document with the given blocks as its body. *)
Definition withBlocks (doc : Document) (items : list StructuralElement) : Document :=
  {| documentId := documentId doc; title := title doc;
     body := Some {| blocks := Some items |} |}.

(** Both extractions ended well: the texts one after the other. *)
Definition appendResults (r1 r2 : Result string) : Result string :=
  match r1 with
  | Ok t1 => match r2 with Ok t2 => Ok (t1 +:+ t2) | Err e => Err e end
  | Err e => Err e
  end.

(** A Drive that lists a Letters folder once one has been created: after
    any history with an answered folder create, the folder lookup finds
    at least one folder. *)
Definition remembersFolders (w : World) : Prop :=
  forall (h : list Event) (auth : JsVal),
    (0 <? foldersCreated h)%nat = true ->
    exists (first : File) (rest : list File),
      w h FileList auth (DriveFilesList lettersFolderQuery "files(id, name)") =
        Ok {| files := Some (first :: rest) |}.

(** A world of that kind: every call is answered; the lookup lists the
    folder created earlier, if any. *)
Definition driveWithMemory : World :=
  fun h A _ c =>
    match c in Call T return Result T with
    | DriveFilesList _ _ =>
        Ok {| files := Some (if (0 <? foldersCreated h)%nat
                             then [Scenario.freshFolder] else []) |}
    | DriveFilesCreate _ _ _ => Ok Scenario.freshFolder
    | DriveFilesUpdate fileId _ _ =>
        Ok {| id := fileId; name := None; webViewLink := None; createdTime := None |}
    | DocsDocumentsCreate _ => Ok Scenario.emptyDocument
    | DocsDocumentsBatchUpdate _ _ => Ok tt
    | DocsDocumentsGet _ => Ok Scenario.emptyDocument
    end.

(** A Drive whose [files.list] answers carry no list of files; every
    other call is answered as in [Scenario.calm]. *)
Definition listlessDrive : World :=
  fun h A auth c =>
    match c in Call T return Result T with
    | DriveFilesList _ _ => Ok {| files := None |}
    | other => Scenario.calm [] Scenario.emptyDocument h _ auth other
    end.

(** A paragraph with the run [Dear ], a text run that has no content, and
    an inline object. *)
Definition looseParagraph : StructuralElement :=
  {| paragraph :=
       Some {| elements :=
                 Some [ Scenario.textElement "Dear ";
                        {| textRun := Some {| content := None |};
                           inlineObjectElement := None |};
                        {| textRun := None; inlineObjectElement := Some "kix.1" |} ] |};
     table := None; sectionBreak := false |}.

End Observe.
Export Observe.

(** ** The OAuth callback route *)

Module OAuth.

(** The credentials of a token exchange. *)
Record Credentials : Type := mkCredentials {
  access_token : option string;
  refresh_token : option string
}.

(** What [oauth2Client.getToken] resolves to. *)
Record GetTokenResponse : Type := mkGetTokenResponse {
  tokens : option Credentials
}.

(** What the callback route sends: [res.redirect(location)], or
    [res.status(n).json({ error })]. *)
Inductive AuthResponse : Type :=
| RedirectTo (location : string)
| AuthErrorJson (status : nat) (error : string).

(** The behaviour of the route: it ends with a response, awaits the token
    exchange, or writes to the error console. *)
Inductive AuthProg : Type :=
| Done (r : AuthResponse)
| GetToken (code : JsVal) (k : Result GetTokenResponse -> AuthProg)
| AuthConsoleError (label : string) (e : JsError) (k : AuthProg).

Inductive AuthEvent : Type :=
| EvGetToken (code : JsVal) (r : Result GetTokenResponse)
| EvAuthLog (label : string) (e : JsError).

(** The authorization server: its answer to an exchange, given the
    exchanges so far. *)
Definition TokenEndpoint : Type :=
  list AuthEvent -> JsVal -> Result GetTokenResponse.

Fixpoint runAuth (endpoint : TokenEndpoint) (h : list AuthEvent) (p : AuthProg)
  : list AuthEvent * AuthResponse :=
  match p with
  | Done r => (h, r)
  | GetToken code k =>
      let r := endpoint h code in
      runAuth endpoint (h ++ [EvGetToken code r]) (k r)
  | AuthConsoleError l e k => runAuth endpoint (h ++ [EvAuthLog l e]) k
  end.

Definition isExchange (ev : AuthEvent) : bool :=
  match ev with EvGetToken _ _ => true | EvAuthLog _ _ => false end.

(** Lines 52-54: the address the client is sent back to. *)
Definition callbackLocation (clientUrl : option string) (t : Credentials) : string :=
  interpolate clientUrl ++ "?access_token=" ++ interpolate (access_token t)
  ++ "&refresh_token=" ++ interpolate (refresh_token t).

(** Lines 55-58: the [catch] block. *)
Definition authFailed (error : JsError) : AuthProg :=
  AuthConsoleError "Error exchanging code for tokens:" error
    (Done (AuthErrorJson 500 "Authentication failed")).

(** GET /api/auth/google/callback (lines 47-59); [clientUrl] is
    [process.env.CLIENT_URL], [query] is [req.query]. *)
Definition googleCallback (clientUrl : option string) (query : gmap string JsVal)
  : AuthProg :=
  let code := prop query "code" in
  GetToken code (fun r =>
    match r with
    | Ok response =>
        match tokens response with
        | Some t => Done (RedirectTo (callbackLocation clientUrl t))
        | None =>
            authFailed
              (TypeError "Cannot read properties of undefined (reading 'access_token')")
        end
    | Err error => authFailed error
    end).

(** An endpoint that grants every exchange the same credentials. *)
Definition granting (t : Credentials) : TokenEndpoint :=
  fun _ _ => Ok {| tokens := Some t |}.


End OAuth.
Export OAuth.

(** ** Proof steps shared by the runs *)

(** Each step destructs the answer of the world at the head of the run. *)
Ltac world_step w :=
  match goal with
  | |- context [w ?h ?A ?a ?c] =>
      let E := fresh "Hanswer" in destruct (w h A a c) eqn:E; simpl
  end.

(** Closes a branch in which the call just destructed was rejected: the
    events before it are the prefix. *)
Ltac failure_found :=
  intros _; split; [reflexivity|];
  first [ eexists [], _, _, _, _; split; reflexivity
        | eexists [_], _, _, _, _; split; reflexivity
        | eexists [_; _], _, _, _, _; split; reflexivity
        | eexists [_; _; _], _, _, _, _; split; reflexivity
        | eexists [_; _; _; _], _, _, _, _; split; reflexivity ].

(** Follows a run through every answer the world can give: each awaited
    call is split into answered and rejected, each list of files into
    absent, empty and non-empty. *)
Ltac explore w :=
  repeat (simpl;
          match goal with
          | |- context [w ?h ?A ?a ?c] => destruct (w h A a c) as [?|?] eqn:?
          | |- context [files ?r] => destruct (files r) as [[|? ?]|] eqn:?
          | |- context [extractContent ?d] => destruct (extractContent d) as [?|?] eqn:?
          end);
  simpl.

(** The same for two requests in a row against a Drive that remembers its
    folders ([Hrem]): a lookup made after an answered folder create finds
    a folder.  A call is split once the events before it are known. *)
Ltac explore_remembering w Hrem :=
  repeat (simpl;
          match goal with
          | |- context [w ?h FileList ?a (DriveFilesList lettersFolderQuery ?f)] =>
              lazymatch h with context [run] => fail | _ => idtac end;
              first [ destruct (Hrem h a eq_refl) as (? & ? & ->)
                    | destruct (w h FileList a (DriveFilesList lettersFolderQuery f))
                        as [?|?] eqn:? ]
          | |- context [w ?h ?A ?a ?c] =>
              lazymatch h with context [run] => fail | _ => idtac end;
              destruct (w h A a c) as [?|?] eqn:?
          | |- context [files ?r] => destruct (files r) as [[|? ?]|] eqn:?
          end);
  simpl.

(** ** Missing fields and credentials *)

Lemma postLetters_rejects_falsy (w : World) (h : list Event) (body : gmap string JsVal) :
  truthy (prop body "content") = false \/ truthy (prop body "title") = false \/
  truthy (prop body "accessToken") = false ->
  run w h (postLetters body) =
    (h, {| status := 400; json := ErrorJson "Missing required fields" |}).
Proof.
  intros Hfalsy. unfold postLetters.
  destruct Hfalsy as [-> | [-> | ->]]; simpl;
    repeat (rewrite ?orb_true_r; simpl); try reflexivity.
Qed.

Lemma prop_missing (obj : gmap string JsVal) (key : string) :
  obj !! key = None -> truthy (prop obj key) = false.
Proof. intros H. unfold prop. rewrite H. reflexivity. Qed.

Lemma prop_present (obj : gmap string JsVal) (key : string) (v : JsVal) :
  obj !! key = Some v -> prop obj key = v.
Proof. intros H. unfold prop. rewrite H. reflexivity. Qed.

(** C4: a create-letter request in which content, title or accessToken is
    missing is answered 400 with an error body, and nothing happens
    downstream: no call is made (and nothing is logged). *)
Theorem postLetters_missing_field_400 (w : World) (body : gmap string JsVal) :
  body !! "content" = None \/ body !! "title" = None \/ body !! "accessToken" = None ->
  run w [] (postLetters body) =
    ([], {| status := 400; json := ErrorJson "Missing required fields" |}).
Proof.
  intros Hmiss. apply postLetters_rejects_falsy.
  destruct Hmiss as [H | [H | H]]; apply prop_missing in H; auto.
Qed.

Lemma postLetters_missing_field_400_witness :
  Scenario.bodyWithoutTitle !! "title" = None /\
  run (Scenario.calm [] Scenario.emptyDocument) [] (postLetters Scenario.bodyWithoutTitle) =
    ([], {| status := 400; json := ErrorJson "Missing required fields" |}).
Proof.
  split; [reflexivity|].
  apply (postLetters_missing_field_400 (Scenario.calm [] Scenario.emptyDocument)).
  right; left; reflexivity.
Defined.

(** C9: a create-letter request in which content, title or accessToken is
    present but is the empty string, or any other falsy value, is answered
    400 exactly as if the field were missing, and no downstream call is
    made. *)
Theorem postLetters_falsy_field_400
    (w : World) (body : gmap string JsVal) (key : string) (v : JsVal) :
  key = "content" \/ key = "title" \/ key = "accessToken" ->
  body !! key = Some v ->
  v = JStr "" \/ truthy v = false ->
  run w [] (postLetters body) =
    ([], {| status := 400; json := ErrorJson "Missing required fields" |}).
Proof.
  intros Hkey Hget Hv.
  assert (Hf : truthy (prop body key) = false).
  { rewrite (prop_present _ _ _ Hget). destruct Hv as [-> | Hv]; [reflexivity | exact Hv]. }
  apply postLetters_rejects_falsy.
  destruct Hkey as [-> | [-> | ->]]; auto.
Qed.

Lemma postLetters_falsy_field_400_witness :
  Scenario.bodyWithEmptyContent !! "content" = Some (JStr "") /\
  run (Scenario.calm [] Scenario.emptyDocument) [] (postLetters Scenario.bodyWithEmptyContent) =
    ([], {| status := 400; json := ErrorJson "Missing required fields" |}).
Proof.
  split; [reflexivity|].
  apply (postLetters_falsy_field_400 (Scenario.calm [] Scenario.emptyDocument)
           _ "content" (JStr "")).
  - left; reflexivity.
  - reflexivity.
  - left; reflexivity.
Defined.

(** C7: a list-letters or read-letter request without accessToken is
    answered 400 before anything is attempted downstream: the run has no
    event at all, so no call to the storage or document collaborators. *)
Theorem get_routes_missing_token_400
    (w : World) (id : string) (query : gmap string JsVal) :
  query !! "accessToken" = None ->
  run w [] (getLetters query) =
    ([], {| status := 400; json := ErrorJson "Access token is required" |}) /\
  run w [] (getLetter id query) =
    ([], {| status := 400; json := ErrorJson "Access token is required" |}).
Proof.
  intros Hmiss. apply prop_missing in Hmiss.
  unfold getLetters, getLetter. rewrite Hmiss. split; reflexivity.
Qed.

Lemma get_routes_missing_token_400_witness :
  Scenario.queryWithoutToken !! "accessToken" = None /\
  run (Scenario.calm [Scenario.lettersFolder] Scenario.emptyDocument) []
    (getLetters Scenario.queryWithoutToken) =
    ([], {| status := 400; json := ErrorJson "Access token is required" |}) /\
  run (Scenario.calm [Scenario.lettersFolder] Scenario.emptyDocument) []
    (getLetter "doc-1" Scenario.queryWithoutToken) =
    ([], {| status := 400; json := ErrorJson "Access token is required" |}).
Proof.
  split; [reflexivity|].
  apply (get_routes_missing_token_400
           (Scenario.calm [Scenario.lettersFolder] Scenario.emptyDocument) "doc-1").
  reflexivity.
Defined.

(** ** The Letters folder *)

(** C6: a list-letters request that carries an accessToken, when the
    folder lookup finds no Letters folder, is answered with success and
    [letters] the empty array; the lookup is the only call of the run, so
    the folder contents are never queried. *)
Theorem getLetters_no_folder_empty_list (w : World) (query : gmap string JsVal) :
  truthy (prop query "accessToken") = true ->
  w [] FileList (prop query "accessToken")
    (DriveFilesList lettersFolderQuery "files(id, name)") = Ok {| files := Some [] |} ->
  run w [] (getLetters query) =
    ([EvCall (prop query "accessToken")
        (DriveFilesList lettersFolderQuery "files(id, name)")
        (Ok {| files := Some [] |})],
     {| status := 200; json := LettersJson (Some []) |}).
Proof.
  intros Htok Hlookup. unfold getLetters. rewrite Htok. simpl.
  rewrite Hlookup. reflexivity.
Qed.

Lemma getLetters_no_folder_empty_list_witness :
  truthy (prop Scenario.tokenQuery "accessToken") = true /\
  run (Scenario.calm [] Scenario.emptyDocument) [] (getLetters Scenario.tokenQuery) =
    ([EvCall (prop Scenario.tokenQuery "accessToken")
        (DriveFilesList lettersFolderQuery "files(id, name)")
        (Ok {| files := Some [] |})],
     {| status := 200; json := LettersJson (Some []) |}).
Proof.
  split; [reflexivity|].
  apply (getLetters_no_folder_empty_list
           (Scenario.calm [] Scenario.emptyDocument) Scenario.tokenQuery);
    reflexivity.
Defined.

(** C5: the folder-ensure step first queries for non-trashed folders named
    exactly Letters.  When the result has entries, the step makes no other
    call and its value is the id of the first entry.  When the result is
    empty, it makes exactly one more call, a create with the name Letters
    and the folder type, and its value is the id of the folder created. *)
Theorem ensureLettersFolder_lookup_or_create
    (w : World) (h : list Event) (auth : JsVal) (found : list File) :
  let lookup := DriveFilesList
      "mimeType='application/vnd.google-apps.folder' and name='Letters' and trashed=false"
      "files(id, name)" in
  let h1 := (h ++ [EvCall auth lookup (Ok {| files := Some found |})])%list in
  let create := DriveFilesCreate "Letters" "application/vnd.google-apps.folder" "id" in
  w h FileList auth lookup = Ok {| files := Some found |} ->
  run w h (ensureLettersFolder auth) =
    match found with
    | first :: _ => (h1, Ok (id first))
    | [] =>
        ((h1 ++ [EvCall auth create (w h1 File auth create)])%list,
         match w h1 File auth create with
         | Ok folder => Ok (id folder)
         | Err e => Err e
         end)
    end.
Proof.
  intros lookup h1 create Hlookup. subst lookup h1 create.
  unfold ensureLettersFolder, lettersFolderQuery, folderMimeType. simpl.
  rewrite Hlookup. destruct found as [|first rest]; simpl.
  - match goal with |- context [w ?h' File auth ?c] =>
      destruct (w h' File auth c); reflexivity end.
  - reflexivity.
Qed.

Lemma ensureLettersFolder_lookup_or_create_witness :
  run (Scenario.calm [] Scenario.emptyDocument) [] (ensureLettersFolder (JStr "ya29.token")) =
    ([EvCall (JStr "ya29.token")
        (DriveFilesList lettersFolderQuery "files(id, name)") (Ok {| files := Some [] |});
      EvCall (JStr "ya29.token")
        (DriveFilesCreate "Letters" folderMimeType "id") (Ok Scenario.freshFolder)],
     Ok (Some "folder-new")) /\
  run (Scenario.calm [Scenario.lettersFolder; Scenario.freshFolder] Scenario.emptyDocument) []
      (ensureLettersFolder (JStr "ya29.token")) =
    ([EvCall (JStr "ya29.token")
        (DriveFilesList lettersFolderQuery "files(id, name)")
        (Ok {| files := Some [Scenario.lettersFolder; Scenario.freshFolder] |})],
     Ok (Some "folder-7")).
Proof.
  split.
  - apply (ensureLettersFolder_lookup_or_create
             (Scenario.calm [] Scenario.emptyDocument) [] (JStr "ya29.token") []).
    reflexivity.
  - apply (ensureLettersFolder_lookup_or_create
             (Scenario.calm [Scenario.lettersFolder; Scenario.freshFolder]
                Scenario.emptyDocument)
             [] (JStr "ya29.token") [Scenario.lettersFolder; Scenario.freshFolder]).
    reflexivity.
Defined.

(** ** The create-letter pipeline *)

(** C1, as the code has it: for a create-letter request whose content,
    title and accessToken pass the presence check, in a run where the
    folder lookup gives its list of folders and no downstream call is
    rejected, the calls are, in this order and once each: the folder
    lookup; a folder create, only when the lookup found no folder; the
    document create with the given title; one batch update that inserts
    the whole content as one insertText at index 1; the reparenting of
    the document into the folder.  That is four calls when the folder
    exists and five when it has to be created, and the answer is 201. *)
Theorem postLetters_calls_in_order
    (w : World) (body : gmap string JsVal) (found : list File) :
  truthy (prop body "content") = true ->
  truthy (prop body "title") = true ->
  truthy (prop body "accessToken") = true ->
  w [] FileList (prop body "accessToken")
    (DriveFilesList lettersFolderQuery "files(id, name)") = Ok {| files := Some found |} ->
  someCallFailed (run w [] (postLetters body)).1 = false ->
  exists (doc : Document) (moved : File),
    match found with
    | first :: _ =>
        run w [] (postLetters body) =
          (folderLookup (prop body "accessToken") found ::
           documentSteps (prop body "accessToken") (prop body "title")
             (prop body "content") doc (id first) moved,
           saved doc)
    | [] =>
        exists folder : File,
          run w [] (postLetters body) =
            (folderLookup (prop body "accessToken") [] ::
             folderCreate (prop body "accessToken") folder ::
             documentSteps (prop body "accessToken") (prop body "title")
               (prop body "content") doc (id folder) moved,
             saved doc)
    end.
Proof.
  intros Hc Ht Ha Hlookup. unfold postLetters. rewrite Hc, Ht, Ha. simpl.
  rewrite Hlookup. destruct found as [|first rest]; simpl.
  - world_step w; [|discriminate].
    world_step w; [|discriminate].
    world_step w; [|discriminate].
    world_step w; [|discriminate].
    intros _. eexists _, _, _.
    repeat match goal with u : unit |- _ => destruct u end. reflexivity.
  - world_step w; [|discriminate].
    world_step w; [|discriminate].
    world_step w; [|discriminate].
    intros _. eexists _, _.
    repeat match goal with u : unit |- _ => destruct u end. reflexivity.
Qed.

Lemma postLetters_calls_in_order_witness :
  truthy (prop Scenario.letterBody "content") = true /\
  someCallFailed
    (run (Scenario.calm [Scenario.lettersFolder] Scenario.emptyDocument) []
       (postLetters Scenario.letterBody)).1 = false /\
  exists (doc : Document) (moved : File),
    run (Scenario.calm [Scenario.lettersFolder] Scenario.emptyDocument) []
      (postLetters Scenario.letterBody) =
      (folderLookup (JStr "ya29.token") [Scenario.lettersFolder] ::
       documentSteps (JStr "ya29.token") (JStr "Dear Ada") (JStr "Dear Ada, hello.")
         doc (Some "folder-7") moved,
       saved doc).
Proof.
  split; [reflexivity|]. split; [reflexivity|].
  apply (postLetters_calls_in_order
           (Scenario.calm [Scenario.lettersFolder] Scenario.emptyDocument)
           Scenario.letterBody [Scenario.lettersFolder]); reflexivity.
Defined.

(** Against C1 as worded: with no Letters folder and every call answered,
    a valid request makes five downstream calls, not four (the lookup and
    the create are two calls); and when the first call is rejected the
    run makes that one call only. *)
Lemma postLetters_not_always_four_calls :
  truthy (prop Scenario.letterBody "content") = true /\
  truthy (prop Scenario.letterBody "title") = true /\
  truthy (prop Scenario.letterBody "accessToken") = true /\
  calls (run (Scenario.calm [] Scenario.emptyDocument) []
           (postLetters Scenario.letterBody)).1 =
    folderLookup (JStr "ya29.token") [] ::
    folderCreate (JStr "ya29.token") Scenario.freshFolder ::
    documentSteps (JStr "ya29.token") (JStr "Dear Ada") (JStr "Dear Ada, hello.")
      Scenario.emptyDocument (Some "folder-new")
      {| id := Some "doc-1"; name := None; webViewLink := None; createdTime := None |} /\
  length (calls (run (Scenario.calm [] Scenario.emptyDocument) []
                   (postLetters Scenario.letterBody)).1) = 5 /\
  length (calls (run (Scenario.rejecting 0 "quota exceeded"
                        (Scenario.calm [Scenario.lettersFolder] Scenario.emptyDocument)) []
                   (postLetters Scenario.letterBody)).1) = 1.
Proof. repeat split. Qed.

(** ** Downstream failures *)

(** C8: for a create, list or read request, when some downstream call of
    the run is rejected, the answer is the 500 with the fixed message of
    the route, which does not depend on the error; the error itself goes
    to the console log only; and the rejected call is the last call of the
    run: nothing is called again after it, and it is the only rejected
    call. *)
Theorem downstream_failure_generic_500 (w : World) (req : Request) :
  someCallFailed (run w [] (handle req)).1 = true ->
  endsInGenericFailure req (run w [] (handle req)).
Proof.
  unfold endsInGenericFailure.
  destruct req as [body | query | docId query]; simpl.
  - unfold postLetters.
    destruct (negb (truthy (prop body "content")) || negb (truthy (prop body "title"))
              || negb (truthy (prop body "accessToken"))); simpl; [discriminate|].
    world_step w; [|failure_found].
    destruct (files a) as [fs|]; simpl; [|discriminate].
    destruct fs as [|first rest]; simpl.
    + world_step w; [|failure_found].
      world_step w; [|failure_found].
      world_step w; [|failure_found].
      world_step w; [|failure_found].
      discriminate.
    + world_step w; [|failure_found].
      world_step w; [|failure_found].
      world_step w; [|failure_found].
      discriminate.
  - unfold getLetters.
    destruct (negb (truthy (prop query "accessToken"))); simpl; [discriminate|].
    world_step w; [|failure_found].
    destruct (files a) as [fs|]; simpl; [|discriminate].
    destruct fs as [|first rest]; simpl; [discriminate|].
    world_step w; [|failure_found].
    discriminate.
  - unfold getLetter.
    destruct (negb (truthy (prop query "accessToken"))); simpl; [discriminate|].
    world_step w; [|failure_found].
    destruct (extractContent a); simpl; discriminate.
Qed.

Lemma downstream_failure_generic_500_witness :
  someCallFailed
    (run (Scenario.rejecting 2 "quota exceeded"
            (Scenario.calm [Scenario.lettersFolder] Scenario.emptyDocument)) []
       (handle (PostLetters Scenario.letterBody))).1 = true /\
  endsInGenericFailure (PostLetters Scenario.letterBody)
    (run (Scenario.rejecting 2 "quota exceeded"
            (Scenario.calm [Scenario.lettersFolder] Scenario.emptyDocument)) []
       (handle (PostLetters Scenario.letterBody))).
Proof.
  split; [reflexivity|].
  apply (downstream_failure_generic_500
           (Scenario.rejecting 2 "quota exceeded"
              (Scenario.calm [Scenario.lettersFolder] Scenario.emptyDocument))
           (PostLetters Scenario.letterBody)).
  reflexivity.
Defined.

(** ** Reading a letter *)

Section Strings.

Lemma append_cons (a : Ascii.ascii) (s t : string) :
  String a s +:+ t = String a (s +:+ t).
Proof. reflexivity. Qed.

Lemma append_empty_r (s : string) : s +:+ "" = s.
Proof. induction s as [|a s IH]; [reflexivity|]. rewrite append_cons, IH. reflexivity. Qed.

Lemma append_assoc (s t u : string) : (s +:+ t) +:+ u = s +:+ (t +:+ u).
Proof.
  induction s as [|a s IH]; [reflexivity|]. rewrite !append_cons, IH. reflexivity.
Qed.

Lemma joined_app (l1 l2 : list string) :
  joined (l1 ++ l2) = joined l1 +:+ joined l2.
Proof.
  induction l1 as [|s l1 IH]; simpl; [reflexivity|].
  rewrite IH, append_assoc. reflexivity.
Qed.

End Strings.

Section Extraction.

Lemma getLetter_run (w : World) (id : string) (query : gmap string JsVal) (doc : Document) :
  truthy (prop query "accessToken") = true ->
  w [] Document (prop query "accessToken") (DocsDocumentsGet id) = Ok doc ->
  run w [] (getLetter id query) =
    match extractContent doc with
    | Ok text =>
        ([EvCall (prop query "accessToken") (DocsDocumentsGet id) (Ok doc)],
         {| status := 200; json := LetterJson (documentId doc) (title doc) text |})
    | Err e =>
        ([EvCall (prop query "accessToken") (DocsDocumentsGet id) (Ok doc);
          EvLog "Error fetching letter:" e],
         {| status := 500; json := ErrorJson "Failed to fetch letter from Google Drive" |})
    end.
Proof.
  intros Htok Hget. unfold getLetter. rewrite Htok. simpl. rewrite Hget. simpl.
  destruct (extractContent doc); reflexivity.
Qed.

Lemma visitElements_text (els : list ParagraphElement) (acc : string) :
  runsCarryText els = true ->
  forEach visitElement els acc = Ok (acc +:+ joined (flat_map runFragments els)).
Proof.
  revert acc. induction els as [|el els IH]; intros acc Hwf; simpl.
  - rewrite append_empty_r. reflexivity.
  - simpl in Hwf. apply andb_prop in Hwf as [Hel Hels].
    unfold visitElement, runFragments. destruct (textRun el) as [r|].
    + apply bool_decide_eq_true in Hel as [s Hs]. rewrite Hs. simpl.
      rewrite (IH _ Hels). unfold appendTo. simpl. rewrite append_assoc. reflexivity.
    + simpl. apply IH, Hels.
Qed.

Lemma visitItems_text (items : list StructuralElement) (acc : string) :
  wellFormed items = true ->
  forEach visitItem items acc = Ok (acc +:+ joined (fragments items)).
Proof.
  revert acc. induction items as [|item items IH]; intros acc Hwf; simpl.
  - rewrite append_empty_r. reflexivity.
  - simpl in Hwf. apply andb_prop in Hwf as [Hitem Hitems].
    apply andb_prop in Hitem as [Hhas Hruns].
    unfold fragments in *. simpl. rewrite joined_app.
    unfold visitItem, blockFragments, paragraphHasElements in *.
    destruct (paragraph item) as [par|]; simpl.
    + apply bool_decide_eq_true in Hhas as [els Hels]. rewrite Hels in *. simpl in *.
      rewrite (visitElements_text _ _ Hruns), (IH _ Hitems), append_assoc. reflexivity.
    + apply IH, Hitems.
Qed.

Lemma visitElements_total (els : list ParagraphElement) (acc : string) :
  exists text, forEach visitElement els acc = Ok text.
Proof.
  revert acc. induction els as [|el els IH]; intros acc; simpl; [eauto|].
  unfold visitElement. destruct (textRun el); apply IH.
Qed.

Lemma visitItems_outcome (items : list StructuralElement) (acc : string) :
  if forallb paragraphHasElements items
  then exists text, forEach visitItem items acc = Ok text
  else forEach visitItem items acc =
         Err (TypeError "Cannot read properties of undefined (reading 'forEach')").
Proof.
  revert acc. induction items as [|item items IH]; intros acc; simpl; [eauto|].
  unfold visitItem at 1 3, paragraphHasElements at 1.
  destruct (paragraph item) as [par|]; simpl; [|apply IH].
  destruct (elements par) as [els|]; simpl; [|reflexivity].
  destruct (visitElements_total els acc) as [text ->]. apply IH.
Qed.


End Extraction.

(** C2, as the code has it: for a fetched document whose body is present
    and in which every paragraph block carries its sequence of run
    elements and every text run carries its text, the content that
    read-letter returns is the concatenation, in document order, of the
    text fragments carried by the run elements of the paragraph blocks:
    blocks in order, runs in order within a paragraph, only runs that
    carry a fragment, nothing put between fragments. *)
Theorem getLetter_content_is_concatenation
    (w : World) (id : string) (query : gmap string JsVal)
    (doc : Document) (b : Body) (items : list StructuralElement) :
  truthy (prop query "accessToken") = true ->
  w [] Document (prop query "accessToken") (DocsDocumentsGet id) = Ok doc ->
  body doc = Some b ->
  blocks b = Some items ->
  wellFormed items = true ->
  run w [] (getLetter id query) =
    ([EvCall (prop query "accessToken") (DocsDocumentsGet id) (Ok doc)],
     {| status := 200;
        json := LetterJson (documentId doc) (title doc) (joined (fragments items)) |}).
Proof.
  intros Htok Hget Hbody Hblocks Hwf. rewrite (getLetter_run _ _ _ _ Htok Hget).
  unfold extractContent. rewrite Hbody, Hblocks, (visitItems_text _ _ Hwf). reflexivity.
Qed.

Lemma getLetter_content_is_concatenation_witness :
  wellFormed Scenario.helloBlocks = true /\
  run (Scenario.calm [] (Scenario.documentOf Scenario.helloBlocks))
      [] (getLetter "doc-1" Scenario.tokenQuery) =
    ([EvCall (JStr "ya29.token") (DocsDocumentsGet "doc-1")
        (Ok (Scenario.documentOf Scenario.helloBlocks))],
     {| status := 200;
        json := LetterJson (Some "doc-1") (Some "Dear Ada") "Hello, world!" |}).
Proof.
  split; [reflexivity|].
  apply (getLetter_content_is_concatenation
           (Scenario.calm [] (Scenario.documentOf Scenario.helloBlocks))
           "doc-1" Scenario.tokenQuery
           (Scenario.documentOf Scenario.helloBlocks)
           {| blocks := Some Scenario.helloBlocks |}
           Scenario.helloBlocks); reflexivity.
Defined.

(** Against C2 as worded: the body being present is not enough.  With a
    paragraph block that has no run-element sequence the request is
    answered 500 and no content is returned; with a text run that has no
    text the content is [Dear undefinedAda], while the fragments carried
    by the runs concatenate to [Dear Ada]. *)
Lemma getLetter_content_not_always_concatenation :
  (body (Scenario.documentOf [Scenario.paragraphOf ["Hello"]; Scenario.brokenParagraph]) =
     Some {| blocks := Some [Scenario.paragraphOf ["Hello"]; Scenario.brokenParagraph] |} /\
   joined (fragments [Scenario.paragraphOf ["Hello"]; Scenario.brokenParagraph]) = "Hello" /\
   (run (Scenario.calm []
           (Scenario.documentOf [Scenario.paragraphOf ["Hello"]; Scenario.brokenParagraph]))
        [] (getLetter "doc-1" Scenario.tokenQuery)).2 =
     {| status := 500; json := ErrorJson "Failed to fetch letter from Google Drive" |}) /\
  (body (Scenario.documentOf [looseParagraph; Scenario.paragraphOf ["Ada"]]) =
     Some {| blocks := Some [looseParagraph; Scenario.paragraphOf ["Ada"]] |} /\
   joined (fragments [looseParagraph; Scenario.paragraphOf ["Ada"]]) = "Dear Ada" /\
   (run (Scenario.calm []
           (Scenario.documentOf [looseParagraph; Scenario.paragraphOf ["Ada"]]))
        [] (getLetter "doc-1" Scenario.tokenQuery)).2 =
     {| status := 200;
        json := LetterJson (Some "doc-1") (Some "Dear Ada") "Dear undefinedAda" |} /\
   "Dear undefinedAda" <> joined (fragments [looseParagraph; Scenario.paragraphOf ["Ada"]])).
Proof. repeat split. discriminate. Qed.



(** C10: the text extraction of read-letter ends without error exactly
    when every paragraph block of the fetched body carries a sequence of
    run elements (an empty one will do); then the answer is a success
    with the extracted text.  For a body with a paragraph block that has
    no run-element sequence the extraction does not give empty content
    for that paragraph: it throws, and the request ends on the generic
    failure path, logged and answered 500. *)
Theorem extraction_total_iff_paragraphs_have_elements
    (w : World) (id : string) (query : gmap string JsVal) (doc : Document) :
  truthy (prop query "accessToken") = true ->
  w [] Document (prop query "accessToken") (DocsDocumentsGet id) = Ok doc ->
  if paragraphsHaveElements doc
  then exists text : string,
         extractContent doc = Ok text /\
         run w [] (getLetter id query) =
           ([EvCall (prop query "accessToken") (DocsDocumentsGet id) (Ok doc)],
            {| status := 200; json := LetterJson (documentId doc) (title doc) text |})
  else exists e : JsError,
         extractContent doc = Err e /\
         run w [] (getLetter id query) =
           ([EvCall (prop query "accessToken") (DocsDocumentsGet id) (Ok doc);
             EvLog "Error fetching letter:" e],
            {| status := 500;
               json := ErrorJson "Failed to fetch letter from Google Drive" |}).
Proof.
  intros Htok Hget. rewrite (getLetter_run _ _ _ _ Htok Hget).
  unfold paragraphsHaveElements, extractContent.
  destruct (body doc) as [b|]; [|eexists; split; reflexivity].
  destruct (blocks b) as [items|]; [|eexists; split; reflexivity].
  pose proof (visitItems_outcome items "") as Hout.
  destruct (forallb paragraphHasElements items).
  - destruct Hout as [text ->]. eexists; split; reflexivity.
  - rewrite Hout. eexists; split; reflexivity.
Qed.

Lemma extraction_total_iff_paragraphs_have_elements_witness :
  paragraphsHaveElements
    (Scenario.documentOf [Scenario.paragraphOf ["Hello"]; Scenario.brokenParagraph]) = false /\
  exists e : JsError,
    extractContent
      (Scenario.documentOf [Scenario.paragraphOf ["Hello"]; Scenario.brokenParagraph]) = Err e /\
    run (Scenario.calm []
           (Scenario.documentOf [Scenario.paragraphOf ["Hello"]; Scenario.brokenParagraph]))
        [] (getLetter "doc-1" Scenario.tokenQuery) =
      ([EvCall (JStr "ya29.token") (DocsDocumentsGet "doc-1")
          (Ok (Scenario.documentOf
                 [Scenario.paragraphOf ["Hello"]; Scenario.brokenParagraph]));
        EvLog "Error fetching letter:" e],
       {| status := 500; json := ErrorJson "Failed to fetch letter from Google Drive" |}).
Proof.
  split; [reflexivity|].
  apply (extraction_total_iff_paragraphs_have_elements
           (Scenario.calm []
              (Scenario.documentOf [Scenario.paragraphOf ["Hello"]; Scenario.brokenParagraph]))
           "doc-1" Scenario.tokenQuery
           (Scenario.documentOf [Scenario.paragraphOf ["Hello"]; Scenario.brokenParagraph]));
    reflexivity.
Defined.


(** ** Every run of the letter routes *)

(** X1: the check at the head of a route decides the 400.  A request that
    fails it is answered 400 with the route's message and the run has no
    event; a request that passes it is never answered 400, and its run
    starts with a downstream call. *)
Theorem check_decides_400 (w : World) (req : Request) :
  if passesCheck req
  then status (run w [] (handle req)).2 <> 400 /\
       exists (ev : Event) (rest : list Event),
         (run w [] (handle req)).1 = ev :: rest /\ isCall ev = true
  else run w [] (handle req) =
         ([], {| status := 400; json := ErrorJson (checkMessage req) |}).
Proof.
  destruct req as [body | query | docId query]; simpl.
  - unfold postLetters.
    destruct (truthy (prop body "content")), (truthy (prop body "title")),
      (truthy (prop body "accessToken")); simpl; try reflexivity.
    explore w; (split; [lia | eexists _, _; split; reflexivity]).
  - unfold getLetters. destruct (truthy (prop query "accessToken")); simpl;
      [|reflexivity].
    explore w; (split; [lia | eexists _, _; split; reflexivity]).
  - unfold getLetter. destruct (truthy (prop query "accessToken")); simpl;
      [|reflexivity].
    explore w; (split; [lia | eexists _, _; split; reflexivity]).
Qed.

(** X2: whatever the world answers, every downstream call of a run is
    made with the accessToken of the request as its credentials. *)
Theorem calls_use_the_request_token (w : World) (req : Request) :
  Forall (fun auth => auth = tokenOf req)
    (credentialsUsed (run w [] (handle req)).1).
Proof.
  destruct req as [body | query | docId query]; simpl.
  - unfold postLetters.
    destruct (negb (truthy (prop body "content")) || negb (truthy (prop body "title"))
              || negb (truthy (prop body "accessToken"))); simpl; [constructor|].
    explore w; repeat constructor.
  - unfold getLetters.
    destruct (negb (truthy (prop query "accessToken"))); simpl; [constructor|].
    explore w; repeat constructor.
  - unfold getLetter.
    destruct (negb (truthy (prop query "accessToken"))); simpl; [constructor|].
    explore w; repeat constructor.
Qed.


(** X4: the two GET routes only read.  A run of list-letters calls
    nothing but [files.list], at most twice; a run of read-letter calls
    nothing but [documents.get], at most once. *)
Theorem get_routes_only_read (w : World) (id : string) (query : gmap string JsVal) :
  eventTags (run w [] (getLetters query)).1 `prefix_of` [TagFilesList; TagFilesList] /\
  eventTags (run w [] (getLetter id query)).1 `prefix_of` [TagDocumentsGet].
Proof.
  unfold getLetters, getLetter.
  destruct (negb (truthy (prop query "accessToken"))); simpl.
  - split; eexists; reflexivity.
  - split; explore w; eexists; reflexivity.
Qed.

(** X5: create-letter answers 201 only at the end of the pipeline: then
    no call of the run was rejected, nothing was logged, the last event
    is the answered reparenting, and the response names the document that
    was reparented, with the edit address built from its id. *)
Theorem postLetters_201_only_after_reparent (w : World) (body : gmap string JsVal) :
  status (run w [] (postLetters body)).2 = 201 ->
  someCallFailed (run w [] (postLetters body)).1 = false /\
  logged (run w [] (postLetters body)).1 = [] /\
  exists (auth : JsVal) (docId folderId : option string) (moved : File),
    last (run w [] (postLetters body)).1 =
      Some (EvCall auth (DriveFilesUpdate docId folderId "id, parents") (Ok moved)) /\
    json (run w [] (postLetters body)).2 =
      SavedJson "Letter saved successfully" docId
        ("https://docs.google.com/document/d/" ++ interpolate docId ++ "/edit").
Proof.
  unfold postLetters.
  destruct (negb (truthy (prop body "content")) || negb (truthy (prop body "title"))
            || negb (truthy (prop body "accessToken"))); simpl; [discriminate|].
  explore w; try discriminate;
    (intros _; repeat split; eexists _, _, _, _; split; reflexivity).
Qed.

Lemma postLetters_201_only_after_reparent_witness :
  status (run (Scenario.calm [] Scenario.emptyDocument) []
            (postLetters Scenario.letterBody)).2 = 201 /\
  logged (run (Scenario.calm [] Scenario.emptyDocument) []
            (postLetters Scenario.letterBody)).1 = [].
Proof.
  split; [reflexivity|].
  apply (postLetters_201_only_after_reparent
           (Scenario.calm [] Scenario.emptyDocument) Scenario.letterBody).
  reflexivity.
Defined.

(** X6: when the folder lookup is answered without its list of files,
    reading its length throws: create-letter and list-letters end on the
    generic failure path after that single call, with the TypeError in
    the log, and nothing is created or listed. *)
Theorem lookup_without_files_ends_in_500
    (w : World) (body query : gmap string JsVal) :
  (passesCheck (PostLetters body) = true ->
   w [] FileList (prop body "accessToken")
     (DriveFilesList lettersFolderQuery "files(id, name)") = Ok {| files := None |} ->
   run w [] (postLetters body) =
     ([EvCall (prop body "accessToken")
         (DriveFilesList lettersFolderQuery "files(id, name)") (Ok {| files := None |});
       EvLog "Error saving letter:"
         (TypeError "Cannot read properties of undefined (reading 'length')")],
      {| status := 500; json := ErrorJson "Failed to save letter to Google Drive" |})) /\
  (passesCheck (GetLetters query) = true ->
   w [] FileList (prop query "accessToken")
     (DriveFilesList lettersFolderQuery "files(id, name)") = Ok {| files := None |} ->
   run w [] (getLetters query) =
     ([EvCall (prop query "accessToken")
         (DriveFilesList lettersFolderQuery "files(id, name)") (Ok {| files := None |});
       EvLog "Error fetching letters:"
         (TypeError "Cannot read properties of undefined (reading 'length')")],
      {| status := 500; json := ErrorJson "Failed to fetch letters from Google Drive" |})).
Proof.
  split; simpl; intros Hcheck Hlookup.
  - apply andb_prop in Hcheck as [Hcheck Ha]. apply andb_prop in Hcheck as [Hc Ht].
    unfold postLetters. rewrite Hc, Ht, Ha. simpl. rewrite Hlookup. reflexivity.
  - unfold getLetters. rewrite Hcheck. simpl. rewrite Hlookup. reflexivity.
Qed.

Lemma lookup_without_files_ends_in_500_witness :
  status (run listlessDrive [] (postLetters Scenario.letterBody)).2 = 500 /\
  status (run listlessDrive [] (getLetters Scenario.tokenQuery)).2 = 500.
Proof.
  pose proof (lookup_without_files_ends_in_500
                listlessDrive Scenario.letterBody Scenario.tokenQuery) as [Hpost Hget].
  split.
  - rewrite (Hpost eq_refl eq_refl). reflexivity.
  - rewrite (Hget eq_refl eq_refl). reflexivity.
Defined.

(** X7: when the folder lookup of list-letters finds folders, the second
    call asks for the non-trashed documents whose parents include the id
    of the first folder found, whatever other folders were found; when it
    is answered, the response is a success whose letters are the files of
    that answer, as they came. *)
Theorem getLetters_lists_the_first_folder
    (w : World) (query : gmap string JsVal) (first : File) (rest : list File)
    (listing : FileList) :
  truthy (prop query "accessToken") = true ->
  w [] FileList (prop query "accessToken")
    (DriveFilesList lettersFolderQuery "files(id, name)") =
    Ok {| files := Some (first :: rest) |} ->
  w [folderLookup (prop query "accessToken") (first :: rest)] FileList
    (prop query "accessToken")
    (DriveFilesList
       ("'" ++ interpolate (id first) ++
        "' in parents and mimeType='application/vnd.google-apps.document' and trashed=false")
       "files(id, name, webViewLink, createdTime)") = Ok listing ->
  run w [] (getLetters query) =
    ([folderLookup (prop query "accessToken") (first :: rest);
      EvCall (prop query "accessToken")
        (DriveFilesList
           ("'" ++ interpolate (id first) ++
            "' in parents and mimeType='application/vnd.google-apps.document' and trashed=false")
           "files(id, name, webViewLink, createdTime)") (Ok listing)],
     {| status := 200; json := LettersJson (files listing) |}).
Proof.
  intros Htok Hlookup Hlist. unfold getLetters. rewrite Htok. simpl.
  rewrite Hlookup. simpl. unfold folderLookup, folderContentsQuery in *.
  rewrite Hlist. reflexivity.
Qed.

Lemma getLetters_lists_the_first_folder_witness :
  run (Scenario.calm [Scenario.lettersFolder; Scenario.freshFolder] Scenario.emptyDocument)
      [] (getLetters Scenario.tokenQuery) =
    ([folderLookup (JStr "ya29.token") [Scenario.lettersFolder; Scenario.freshFolder];
      EvCall (JStr "ya29.token")
        (DriveFilesList
           "'folder-7' in parents and mimeType='application/vnd.google-apps.document' and trashed=false"
           "files(id, name, webViewLink, createdTime)")
        (Ok {| files := Some [Scenario.lettersFolder; Scenario.freshFolder] |})],
     {| status := 200;
        json := LettersJson (Some [Scenario.lettersFolder; Scenario.freshFolder]) |}).
Proof.
  apply (getLetters_lists_the_first_folder
           (Scenario.calm [Scenario.lettersFolder; Scenario.freshFolder]
              Scenario.emptyDocument)
           Scenario.tokenQuery Scenario.lettersFolder [Scenario.freshFolder]
           {| files := Some [Scenario.lettersFolder; Scenario.freshFolder] |});
    reflexivity.
Defined.

(** X8: two create-letter requests in a row, the second run after the
    events of the first, create at most one Letters folder between them,
    whatever the requests and the answers are, provided the Drive lists a
    Letters folder once one has been created. *)
Theorem two_saves_create_at_most_one_folder
    (w : World) (body1 body2 : gmap string JsVal) :
  remembersFolders w ->
  foldersCreated
    (run w (run w [] (postLetters body1)).1 (postLetters body2)).1 <= 1.
Proof.
  intros Hrem. unfold remembersFolders in Hrem. unfold postLetters.
  destruct (negb (truthy (prop body1 "content")) || negb (truthy (prop body1 "title"))
            || negb (truthy (prop body1 "accessToken")));
    destruct (negb (truthy (prop body2 "content")) || negb (truthy (prop body2 "title"))
              || negb (truthy (prop body2 "accessToken")));
    explore_remembering w Hrem; unfold foldersCreated; simpl; lia.
Qed.

Lemma driveWithMemory_remembers : remembersFolders driveWithMemory.
Proof.
  intros h auth Hcreated. unfold driveWithMemory. rewrite Hcreated.
  eexists _, _. reflexivity.
Defined.

Lemma two_saves_create_at_most_one_folder_witness :
  remembersFolders driveWithMemory /\
  foldersCreated (run driveWithMemory [] (postLetters Scenario.letterBody)).1 = 1 /\
  foldersCreated
    (run driveWithMemory (run driveWithMemory [] (postLetters Scenario.letterBody)).1
       (postLetters Scenario.letterBody)).1 <= 1.
Proof.
  split; [exact driveWithMemory_remembers|]. split; [reflexivity|].
  apply (two_saves_create_at_most_one_folder
           driveWithMemory Scenario.letterBody Scenario.letterBody).
  exact driveWithMemory_remembers.
Defined.


(** ** The text extraction on any body *)

Section ExtractionFacts.

Lemma visitElements_formula (els : list ParagraphElement) (acc : string) :
  forEach visitElement els acc = Ok (acc +:+ joined (flat_map runText els)).
Proof.
  revert acc. induction els as [|el els IH]; intros acc; simpl.
  - rewrite append_empty_r. reflexivity.
  - unfold visitElement, runText. destruct (textRun el) as [r|]; simpl.
    + rewrite IH. unfold appendTo. rewrite append_assoc. reflexivity.
    + apply IH.
Qed.

Lemma visitItems_formula (items : list StructuralElement) (acc : string) :
  forallb paragraphHasElements items = true ->
  forEach visitItem items acc = Ok (acc +:+ joined (flat_map blockTexts items)).
Proof.
  revert acc. induction items as [|item items IH]; intros acc Hall; simpl.
  - rewrite append_empty_r. reflexivity.
  - simpl in Hall. apply andb_prop in Hall as [Hitem Hitems].
    rewrite joined_app. unfold visitItem, blockTexts, paragraphHasElements in *.
    destruct (paragraph item) as [par|]; simpl.
    + apply bool_decide_eq_true in Hitem as [els Hels]. rewrite Hels. simpl.
      rewrite visitElements_formula, (IH _ Hitems), append_assoc. reflexivity.
    + apply IH, Hitems.
Qed.

Lemma visitItem_shift (item : StructuralElement) (acc : string) :
  visitItem acc item =
    match visitItem "" item with
    | Ok t => Ok (acc +:+ t)
    | Err e => Err e
    end.
Proof.
  unfold visitItem. destruct (paragraph item) as [par|].
  - destruct (elements par) as [els|]; [|reflexivity].
    rewrite !visitElements_formula. reflexivity.
  - rewrite append_empty_r. reflexivity.
Qed.

Lemma visitItems_shift (items : list StructuralElement) (acc : string) :
  forEach visitItem items acc =
    match forEach visitItem items "" with
    | Ok t => Ok (acc +:+ t)
    | Err e => Err e
    end.
Proof.
  revert acc. induction items as [|item items IH]; intros acc; simpl.
  - rewrite append_empty_r. reflexivity.
  - rewrite (visitItem_shift item acc). destruct (visitItem "" item) as [t|e];
      [|reflexivity].
    rewrite (IH (acc +:+ t)), (IH t).
    destruct (forEach visitItem items "") as [t'|e]; [|reflexivity].
    rewrite append_assoc. reflexivity.
Qed.

Lemma visitItems_app (xs ys : list StructuralElement) (acc : string) :
  forEach visitItem (xs ++ ys) acc =
    match forEach visitItem xs acc with
    | Ok t => forEach visitItem ys t
    | Err e => Err e
    end.
Proof.
  revert acc. induction xs as [|x xs IH]; intros acc; simpl; [reflexivity|].
  destruct (visitItem acc x); [apply IH | reflexivity].
Qed.

Lemma visitItems_paragraphs_only (items : list StructuralElement) (acc : string) :
  forEach visitItem (List.filter isParagraphBlock items) acc =
    forEach visitItem items acc.
Proof.
  revert acc. induction items as [|item items IH]; intros acc; simpl; [reflexivity|].
  unfold isParagraphBlock at 1. unfold visitItem at 2.
  destruct (paragraph item) as [par|] eqn:Hpar; simpl.
  - unfold visitItem at 1. rewrite Hpar.
    destruct (elements par) as [els|]; [|reflexivity].
    destruct (forEach visitElement els acc); [apply IH | reflexivity].
  - apply IH.
Qed.

End ExtractionFacts.

(** X9: for a body whose paragraph blocks all have their run sequence,
    the extracted text is the concatenation, in order, of what each text
    run appends, whether or not the run has its text: a text run without
    content appends the nine letters of [undefined], and an element
    without text run appends nothing. *)
Theorem extractContent_appends_every_text_run
    (doc : Document) (b : Body) (items : list StructuralElement) :
  body doc = Some b ->
  blocks b = Some items ->
  forallb paragraphHasElements items = true ->
  extractContent doc = Ok (joined (flat_map blockTexts items)).
Proof.
  intros Hbody Hblocks Hall. unfold extractContent. rewrite Hbody, Hblocks.
  rewrite (visitItems_formula _ _ Hall). reflexivity.
Qed.

Lemma extractContent_appends_every_text_run_witness :
  forallb paragraphHasElements [looseParagraph; Scenario.paragraphOf ["Ada"]] = true /\
  extractContent (Scenario.documentOf [looseParagraph; Scenario.paragraphOf ["Ada"]]) =
    Ok "Dear undefinedAda".
Proof.
  split; [reflexivity|].
  apply (extractContent_appends_every_text_run
           (Scenario.documentOf [looseParagraph; Scenario.paragraphOf ["Ada"]])
           {| blocks := Some [looseParagraph; Scenario.paragraphOf ["Ada"]] |}
           [looseParagraph; Scenario.paragraphOf ["Ada"]]); reflexivity.
Defined.

(** X10: blocks that are not paragraphs never count: dropping every table,
    section break and other non-paragraph block from a body changes
    neither the extracted text nor whether the extraction throws. *)
Theorem extractContent_ignores_other_blocks
    (doc : Document) (items : list StructuralElement) :
  extractContent (withBlocks doc (List.filter isParagraphBlock items)) =
    extractContent (withBlocks doc items).
Proof.
  unfold extractContent, withBlocks. simpl. apply visitItems_paragraphs_only.
Qed.

(** X11: the extraction of a body made of two lists of blocks, one after
    the other, is the text of the first followed by the text of the
    second, with nothing in between; it throws when the extraction of
    either part throws. *)
Theorem extractContent_of_appended_bodies
    (doc : Document) (xs ys : list StructuralElement) :
  extractContent (withBlocks doc (xs ++ ys)) =
    appendResults (extractContent (withBlocks doc xs))
                  (extractContent (withBlocks doc ys)).
Proof.
  unfold extractContent, withBlocks, appendResults. simpl.
  rewrite visitItems_app.
  destruct (forEach visitItem xs "") as [t|e]; [|reflexivity].
  rewrite (visitItems_shift ys t).
  destruct (forEach visitItem ys ""); reflexivity.
Qed.

(** ** The OAuth callback *)



(** X13: when the exchange is answered with credentials, the callback
    makes that one exchange, logs nothing, and redirects to the client
    address followed by the two tokens as query parameters, each spliced
    in as it is; an absent token, or an unset client address, is spliced
    in as the text [undefined]. *)
Theorem googleCallback_redirects_with_tokens
    (endpoint : TokenEndpoint) (clientUrl : option string)
    (query : gmap string JsVal) (t : Credentials) :
  endpoint [] (prop query "code") = Ok {| tokens := Some t |} ->
  runAuth endpoint [] (googleCallback clientUrl query) =
    ([EvGetToken (prop query "code") (Ok {| tokens := Some t |})],
     RedirectTo
       (default "undefined" clientUrl ++ "?access_token=" ++
        default "undefined" (access_token t) ++ "&refresh_token=" ++
        default "undefined" (refresh_token t))).
Proof.
  intros Hanswer. unfold googleCallback. simpl. rewrite Hanswer. reflexivity.
Qed.

Lemma googleCallback_redirects_with_tokens_witness :
  runAuth (granting {| access_token := Some "ya29.a"; refresh_token := None |}) []
    (googleCallback (Some "http://localhost:3000") {[ "code" := JStr "4/0Ab" ]}) =
    ([EvGetToken (JStr "4/0Ab")
        (Ok {| tokens := Some {| access_token := Some "ya29.a"; refresh_token := None |} |})],
     RedirectTo "http://localhost:3000?access_token=ya29.a&refresh_token=undefined").
Proof.
  exact (googleCallback_redirects_with_tokens
           (granting {| access_token := Some "ya29.a"; refresh_token := None |})
           (Some "http://localhost:3000") {[ "code" := JStr "4/0Ab" ]}
           {| access_token := Some "ya29.a"; refresh_token := None |} eq_refl).
Defined.

(** X14: the tokens are not escaped in the redirect address, so the
    address does not determine them: moving the text
    [&refresh_token=] with what follows it from the access token to the
    front of the refresh token gives the same address. *)
Theorem callbackLocation_does_not_escape
    (clientUrl : option string) (a b c : string) :
  callbackLocation clientUrl
    {| access_token := Some (a ++ "&refresh_token=" ++ b); refresh_token := Some c |} =
  callbackLocation clientUrl
    {| access_token := Some a; refresh_token := Some (b ++ "&refresh_token=" ++ c) |}.
Proof.
  unfold callbackLocation. simpl.
  rewrite !append_assoc. reflexivity.
Qed.
